(** * execas: report the real and effective user id of the calling process

    A shallow embedding of [src/print_ids/src/execas.c]

    <<
      int main()
      {
          uid_t ruid, euid;
          ruid = getuid();
          euid = geteuid();

          printf("real: %d effective: %d\n", ruid, euid);

          return 0;
      }
    >>

    together with the small part of the C library and of the kernel that
    the program talks to: the credentials of the process, its descriptor
    table, the stdio buffer of [stdout], [printf] with its [%d] conversion
    and process exit.

    Platform: [uid_t] is the 32-bit unsigned integer of Linux/glibc
    ([typedef unsigned int __uid_t]) and [int] is 32-bit two's complement.

    The run of the program is given in two layers.  [Execas.run] is the
    run in which every call returns to the program; a write on a pipe
    without reader returns [-1] there and leaves [SIGPIPE] raised.
    [Launch.outcome_of] adds the action of the signal: under the default
    action the process ends inside the write that raised it. *)

From Stdlib Require Import ZArith String Ascii List Lia.
From Stdlib Require Import Decimal DecimalFacts DecimalPos DecimalN DecimalZ DecimalString.
From stdpp Require Import base option gmap strings.

Open Scope Z_scope.

(* ===================================================================== *)
(** ** Machine integers *)
(* ===================================================================== *)

Module CInt.

(** Width of [int] and [unsigned int]. *)
Definition wordsize : Z := 32.
Definition modulus : Z := 2 ^ wordsize.
Definition half_modulus : Z := 2 ^ (wordsize - 1).

Definition UINT_MAX : Z := modulus - 1.
Definition INT_MAX : Z := half_modulus - 1.
Definition INT_MIN : Z := - half_modulus.

(** The values of an [unsigned int]. *)
Definition is_uint (u : Z) : Prop := 0 <= u <= UINT_MAX.

(** The values of an [int]. *)
Definition is_int (i : Z) : Prop := INT_MIN <= i <= INT_MAX.

(** Modelled from the spec: the type [uid_t] is declared by the platform
    header [<sys/types.h>], which is not part of the repository; it is
    taken here as [unsigned int], the 32-bit unsigned user-id type of
    Linux. *)
Definition is_uid (u : Z) : Prop := is_uint u.

(** The 32 bits of a word read as an [int]: what [va_arg(ap, int)]
    yields on a slot that was filled with an [unsigned int]. *)
Definition signed (w : Z) : Z :=
  let u := w mod modulus in
  if u <? half_modulus then u else u - modulus.

End CInt.

(* ===================================================================== *)
(** ** Characters and the decimal conversion of [printf] *)
(* ===================================================================== *)

Module Fmt.

Local Open Scope char_scope.

(** The character written [\n] in C source. *)
Definition LF : ascii := "010".

Definition is_digit (c : ascii) : bool :=
  match c with
  | "0" | "1" | "2" | "3" | "4" | "5" | "6" | "7" | "8" | "9" => true
  | _ => false
  end.

(** [isspace] in the C locale: space, \t, \n, \v, \f, \r. *)
Definition isspace (c : ascii) : bool :=
  match c with
  | " " | "009" | "010" | "011" | "012" | "013" => true
  | _ => false
  end.

Local Close Scope char_scope.
Local Open Scope string_scope.

(** The [%d] conversion with no flags, width or precision: a minus sign
    for a negative value, then the decimal digits, most significant
    first. *)
Definition print_d (i : Z) : string := NilZero.string_of_int (Z.to_int i).

(** Reading a decimal numeral back ([None] when the text is not one). *)
Definition read_d (s : string) : option Z :=
  option_map Z.of_int (NilZero.int_of_string s).

(** [vformat fmt ap]: the text [vfprintf] produces from the format [fmt]
    and the argument words [ap].  Supported directives are [%d] and
    [%%]; [None] stands for the cases the C standard leaves undefined
    (a directive without its argument) or that are not modelled. *)
Fixpoint vformat (fmt : string) (ap : list Z) : option string :=
  match fmt with
  | EmptyString => Some EmptyString
  | String c fmt' =>
      if Ascii.eqb c "%"%char then
        match fmt' with
        | EmptyString => None
        | String d rest =>
            if Ascii.eqb d "d"%char then
              match ap with
              | w :: ap' =>
                  option_map (String.append (print_d (CInt.signed w)))
                             (vformat rest ap')
              | nil => None
              end
            else if Ascii.eqb d "%"%char then
              option_map (String "%"%char) (vformat rest ap)
            else None
        end
      else option_map (String c) (vformat fmt' ap)
  end.

(** Position-independent character tests on strings. *)
Fixpoint forallb_string (f : ascii -> bool) (s : string) : bool :=
  match s with
  | EmptyString => true
  | String c s' => f c && forallb_string f s'
  end.

Fixpoint count_char (c : ascii) (s : string) : nat :=
  match s with
  | EmptyString => O
  | String d s' => ((if Ascii.eqb c d then 1 else 0) + count_char c s')%nat
  end.

Definition first_char (s : string) : option ascii :=
  match s with
  | EmptyString => None
  | String c _ => Some c
  end.

Fixpoint last_char (s : string) : option ascii :=
  match s with
  | EmptyString => None
  | String c EmptyString => Some c
  | String _ s' => last_char s'
  end.

(** A decimal numeral: an optional minus sign, then at least one digit. *)
Definition is_numeral (s : string) : bool :=
  match s with
  | EmptyString => false
  | String c s' =>
      if Ascii.eqb c "-"%char
      then negb (String.eqb s' EmptyString) && forallb_string is_digit s'
      else forallb_string is_digit s
  end.

(** No leading zeros: after the optional sign, the digit [0] comes
    first only in the numeral [0] itself. *)
Definition no_leading_zero (s : string) : bool :=
  let digits :=
    match s with
    | String c s' => if Ascii.eqb c "-"%char then s' else s
    | EmptyString => s
    end in
  match digits with
  | String c (String _ _) => negb (Ascii.eqb c "0"%char)
  | _ => true
  end.

End Fmt.

(* ===================================================================== *)
(** ** The process, the kernel calls and stdio *)
(* ===================================================================== *)

Module Sys.

Inductive errno := EBADF | EPIPE | ENOSPC | EIO.

(** An open file description as the program can affect it: whether it
    is a terminal, the bytes that have been written through it, in the
    order of the writes, and the error (if any) with which it rejects a
    write.  [f_data] is what the other end of a terminal or pipe has
    been sent; for a regular file it is the sequence of bytes handed to
    the file, not the content of the file: where the bytes land (at the
    offset of the description, possibly over older content) is not
    followed. *)
Record file := File {
  f_tty : bool;
  f_data : string;
  f_fault : option errno
}.

(** The signal a write can raise. *)
Inductive signal := SIGPIPE.

(** Disposition of a signal at [execve]: default action or ignored. *)
Inductive sigaction := SIG_DFL | SIG_IGN.

(** Buffering of a stdio stream: line buffered or fully buffered. *)
Inductive buf_mode := IOLBF | IOFBF.

(** System calls as seen from outside the process. *)
Inductive event :=
| ev_getuid (ret : Z)
| ev_geteuid (ret : Z)
| ev_write (fd : Z) (buf : string) (ret : Z)
| ev_exit (status : Z).

(** What the process is started with. *)
Record ambient := Ambient {
  a_ruid : Z;
  a_euid : Z;
  a_argv : list string;
  a_environ : list string;
  a_fdt : gmap Z file
}.

(** The running process: credentials, arguments, environment,
    descriptor table, the stdio state of [stdout] (mode, pending
    bytes, error indicator), the system calls made so far, and the
    signals raised so far, each with the number of calls made when it
    was raised (the call that raised it being the last of them). *)
Record proc := Proc {
  p_ruid : Z;
  p_euid : Z;
  p_argv : list string;
  p_environ : list string;
  p_fdt : gmap Z file;
  p_mode : buf_mode;
  p_buf : string;
  p_ferror : bool;
  p_trace : list event;
  p_signals : list (signal * nat)
}.

Definition STDOUT_FILENO : Z := 1.

Definition set_fdt (t : gmap Z file) (p : proc) : proc :=
  Proc (p_ruid p) (p_euid p) (p_argv p) (p_environ p) t
       (p_mode p) (p_buf p) (p_ferror p) (p_trace p) (p_signals p).

Definition set_buf (b : string) (p : proc) : proc :=
  Proc (p_ruid p) (p_euid p) (p_argv p) (p_environ p) (p_fdt p)
       (p_mode p) b (p_ferror p) (p_trace p) (p_signals p).

Definition set_ferror (p : proc) : proc :=
  Proc (p_ruid p) (p_euid p) (p_argv p) (p_environ p) (p_fdt p)
       (p_mode p) (p_buf p) true (p_trace p) (p_signals p).

Definition log (e : event) (p : proc) : proc :=
  Proc (p_ruid p) (p_euid p) (p_argv p) (p_environ p) (p_fdt p)
       (p_mode p) (p_buf p) (p_ferror p) (p_trace p ++ [e]) (p_signals p).

(** The kernel raises [sig] for the process during its latest call. *)
Definition raise (sig : signal) (p : proc) : proc :=
  Proc (p_ruid p) (p_euid p) (p_argv p) (p_environ p) (p_fdt p)
       (p_mode p) (p_buf p) (p_ferror p) (p_trace p)
       (p_signals p ++ [(sig, length (p_trace p))]).

(** [stdout] is line buffered when descriptor 1 is a terminal and
    fully buffered otherwise (also when descriptor 1 is closed). *)
Definition stdout_mode (t : gmap Z file) : buf_mode :=
  match t !! STDOUT_FILENO with
  | Some f => if f_tty f then IOLBF else IOFBF
  | None => IOFBF
  end.

(** Process image right after [execve]: nothing buffered, no call made. *)
Definition exec (a : ambient) : proc :=
  Proc (a_ruid a) (a_euid a) (a_argv a) (a_environ a) (a_fdt a)
       (stdout_mode (a_fdt a)) EmptyString false [] [].

(** *** Computations of the process *)

Definition M (A : Type) : Type := proc -> A * proc.

Definition ret {A} (x : A) : M A := fun p => (x, p).

Definition bind {A B} (c : M A) (k : A -> M B) : M B :=
  fun p => let (x, p') := c p in k x p'.

Declare Scope sys_scope.
Delimit Scope sys_scope with sys.
Notation "x <- c ;; k" := (bind c (fun x => k))
  (at level 100, c at next level, right associativity) : sys_scope.
Notation "c ;;; k" := (bind c (fun _ => k))
  (at level 100, right associativity) : sys_scope.

(** *** Kernel calls *)

(** [getuid(2)]: the real user id; cannot fail. *)
Definition getuid : M Z :=
  fun p => (p_ruid p, log (ev_getuid (p_ruid p)) p).

(** [geteuid(2)]: the effective user id; cannot fail. *)
Definition geteuid : M Z :=
  fun p => (p_euid p, log (ev_geteuid (p_euid p)) p).

Definition strlen (s : string) : Z := Z.of_nat (String.length s).

(** [write(2)] as it returns to the caller: the bytes are handed to
    the file behind [fd] and their number is returned; [-1] when [fd]
    is not open or the file rejects the write.  A write on a pipe
    without reader ([EPIPE]) also raises [SIGPIPE]. *)
Definition write (fd : Z) (buf : string) : M Z :=
  fun p =>
    match p_fdt p !! fd with
    | Some (File tty data None) =>
        let n := strlen buf in
        (n, log (ev_write fd buf n)
                (set_fdt (<[fd := File tty (data +:+ buf) None]> (p_fdt p)) p))
    | Some (File _ _ (Some EPIPE)) =>
        (-1, raise SIGPIPE (log (ev_write fd buf (-1)) p))
    | Some (File _ _ (Some _)) | None =>
        (-1, log (ev_write fd buf (-1)) p)
    end.

(** [_exit(2)]: the low eight bits of [status] become the exit status. *)
Definition _exit (status : Z) : M Z :=
  fun p => let st := Z.land status 255 in (st, log (ev_exit st) p).

(** *** stdio on [stdout] *)

(** Transmit the pending bytes of [stdout] with one [write]; on
    failure the bytes are dropped and the error indicator is set. *)
Definition fflush_stdout : M Z :=
  fun p =>
    match p_buf p with
    | EmptyString => (0, p)
    | pending =>
        let (r, p1) := write STDOUT_FILENO pending p in
        let p2 := set_buf EmptyString p1 in
        if r <? 0 then (-1, set_ferror p2) else (0, p2)
    end.

(** Split after the last newline: [Some (upto, rest)], or [None] when
    there is no newline. *)
Fixpoint split_last_LF (s : string) : option (string * string) :=
  match s with
  | EmptyString => None
  | String c s' =>
      match split_last_LF s' with
      | Some (h, t) => Some (String c h, t)
      | None =>
          if Ascii.eqb c Fmt.LF then Some (String c EmptyString, s')
          else None
      end
  end.

(** [printf]: format, append to the buffer of [stdout], and in line
    buffered mode transmit everything up to the last newline.  Returns
    the number of characters produced, or a negative value on error. *)
Definition printf (fmt : string) (args : list Z) : M Z :=
  match Fmt.vformat fmt args with
  | None => ret (-1)
  | Some s =>
      fun p =>
        let all := p_buf p +:+ s in
        match p_mode p, split_last_LF all with
        | IOLBF, Some (lines, rest) =>
            let (r, p1) := fflush_stdout (set_buf lines p) in
            if r <? 0 then (-1, p1)
            else (strlen s, set_buf rest p1)
        | _, _ => (strlen s, set_buf all p)
        end
  end.

(** [exit(3)]: flush [stdout], then [_exit]. *)
Definition exit (status : Z) : M Z :=
  (fflush_stdout ;;; _exit status)%sys.

(** *** Observations on a trace *)

(** The byte strings handed to [write] on descriptor [fd], in order. *)
Fixpoint writes_on (fd : Z) (tr : list event) : list string :=
  match tr with
  | [] => []
  | ev_write fd' buf _ :: tr' =>
      if fd' =? fd then buf :: writes_on fd tr' else writes_on fd tr'
  | _ :: tr' => writes_on fd tr'
  end.

Definition is_write (e : event) : bool :=
  match e with ev_write _ _ _ => true | _ => false end.

Definition is_getuid (e : event) : bool :=
  match e with ev_getuid _ => true | _ => false end.

Definition is_geteuid (e : event) : bool :=
  match e with ev_geteuid _ => true | _ => false end.

(** The calls of a trace without their arguments and results. *)
Inductive call := GETUID | GETEUID | WRITE | EXIT.

Definition call_of (e : event) : call :=
  match e with
  | ev_getuid _ => GETUID
  | ev_geteuid _ => GETEUID
  | ev_write _ _ _ => WRITE
  | ev_exit _ => EXIT
  end.

End Sys.

(* ===================================================================== *)
(** ** The program *)
(* ===================================================================== *)

Module Execas.

Import Sys.
Local Open Scope sys_scope.

(** The format string of the program, ["real: %d effective: %d\n"]. *)
Definition format_string : string :=
  "real: %d effective: %d" +:+ String Fmt.LF EmptyString.

(** [main] of execas.c. *)
Definition main : M Z :=
  ruid <- getuid ;;
  euid <- geteuid ;;
  printf format_string [ruid; euid] ;;;
  ret 0.

(** The C runtime around [main]: [exit(main())]. *)
Definition start : M Z :=
  status <- main ;;
  exit status.

(** A whole run from an ambient state, every call returning to the
    program: exit status and final process. *)
Definition run (a : ambient) : Z * proc := start (exec a).

Definition exit_status (a : ambient) : Z := fst (run a).
Definition final (a : ambient) : proc := snd (run a).
Definition trace (a : ambient) : list event := p_trace (final a).

(** Everything the run hands to [write] on standard output. *)
Definition stdout_written (a : ambient) : string :=
  fold_right String.append EmptyString (writes_on STDOUT_FILENO (trace a)).

(** The line the program produces for the ids [r] and [e]: each id
    goes through [%d], which reads its 32 bits as an [int]. *)
Definition line (r e : Z) : string :=
  "real: " +:+ Fmt.print_d (CInt.signed r) +:+
  " effective: " +:+ Fmt.print_d (CInt.signed e) +:+
  String Fmt.LF EmptyString.

(** The line as the specification words it,
    [real: <real_uid> effective: <effective_uid>\n], each placeholder
    being the decimal numeral of the id itself. *)
Definition spec_line (r e : Z) : string :=
  "real: " +:+ Fmt.print_d r +:+
  " effective: " +:+ Fmt.print_d e +:+
  String Fmt.LF EmptyString.

(** The ids of an ambient state are values of [uid_t]. *)
Definition valid (a : ambient) : Prop :=
  CInt.is_uid (a_ruid a) /\ CInt.is_uid (a_euid a).

(** Descriptor 1 is open and takes writes. *)
Definition accepts (t : gmap Z file) : bool :=
  match t !! STDOUT_FILENO with
  | Some (File _ _ None) => true
  | _ => false
  end.

(** The descriptor table once [s] has been written to descriptor 1. *)
Definition fdt_after (t : gmap Z file) (s : string) : gmap Z file :=
  match t !! STDOUT_FILENO with
  | Some (File tty data None) =>
      <[STDOUT_FILENO := File tty (data +:+ s) None]> t
  | _ => t
  end.

(** Descriptor 1 is a pipe without reader. *)
Definition broken_pipe (t : gmap Z file) : bool :=
  match t !! STDOUT_FILENO with
  | Some (File _ _ (Some EPIPE)) => true
  | _ => false
  end.

(** What [write] on descriptor 1 returns for [s]. *)
Definition write_ret (t : gmap Z file) (s : string) : Z :=
  if accepts t then strlen s else -1.

(** *** Reading an output line back

    The two number fields of a line of the form
    [real: <field> effective: <field>\n], as texts; [None] when the
    line does not have that form. *)

Fixpoint strip_prefix (pre s : string) : option string :=
  match pre, s with
  | EmptyString, _ => Some s
  | String c pre', String d s' =>
      if Ascii.eqb c d then strip_prefix pre' s' else None
  | String _ _, EmptyString => None
  end.

Definition numeral_char (c : ascii) : bool :=
  Fmt.is_digit c || Ascii.eqb c "-"%char.

(** Longest prefix made of sign and digit characters, and the rest. *)
Fixpoint span_numeral (s : string) : string * string :=
  match s with
  | EmptyString => (EmptyString, EmptyString)
  | String c s' =>
      if numeral_char c
      then let (n, rest) := span_numeral s' in (String c n, rest)
      else (EmptyString, s)
  end.

Definition fields (out : string) : option (string * string) :=
  match strip_prefix "real: " out with
  | None => None
  | Some s1 =>
      let (tr, s2) := span_numeral s1 in
      match strip_prefix " effective: " s2 with
      | None => None
      | Some s3 =>
          let (te, s4) := span_numeral s3 in
          if String.eqb s4 (String Fmt.LF EmptyString)
          then Some (tr, te) else None
      end
  end.

(** The text without its last character. *)
Fixpoint chop (s : string) : string :=
  match s with
  | EmptyString => EmptyString
  | String _ EmptyString => EmptyString
  | String c s' => String c (chop s')
  end.

End Execas.

(* ===================================================================== *)
(** ** Some ambient states *)
(* ===================================================================== *)

Module Scenario.

Import Sys.

Definition terminal : file := File true EmptyString None.
Definition pipe : file := File false EmptyString None.
(** A pipe whose reader is gone. *)
Definition broken_pipe : file := File false EmptyString (Some EPIPE).
Definition full_disk : file := File false "log" (Some ENOSPC).

(** Descriptors 0, 1, 2 with [out] as standard output, and one more
    open file on descriptor 3. *)
Definition descriptors (out : file) : gmap Z file :=
  <[0 := terminal]> (<[1 := out]> (<[2 := terminal]>
    (<[3 := File false "data" None]> ∅))).

(** Like [descriptors], with standard output closed. *)
Definition descriptors_closed : gmap Z file :=
  <[0 := terminal]> (<[2 := terminal]> ∅).

(** User 1000 runs the program from a terminal. *)
Definition plain : ambient :=
  Ambient 1000 1000 ["./execas"] ["HOME=/home/user"] (descriptors terminal).

(** User 1000 runs the program, owned by user 0 with the set-user-ID
    bit, with its output in a pipe. *)
Definition setuid_root : ambient :=
  Ambient 1000 0 ["./execas"] ["HOME=/home/user"] (descriptors pipe).

(** Same ids as [plain], other arguments and environment. *)
Definition plain_args : ambient :=
  Ambient 1000 1000 ["./execas"; "--help"; "x"] ["LANG=C"; "PATH=/bin"]
          (descriptors terminal).

(** A user id above [INT_MAX]. *)
Definition high_uid : ambient :=
  Ambient 3000000000 3000000000 ["./execas"] [] (descriptors terminal).

(** The id 4294967294 (the traditional [nfsnobody]) running a program
    owned by user 1000 with the set-user-ID bit. *)
Definition nfsnobody : ambient :=
  Ambient 4294967294 1000 ["./execas"] [] (descriptors pipe).

Definition closed_stdout : ambient :=
  Ambient 1000 1000 ["./execas"] [] descriptors_closed.

Definition epipe_stdout : ambient :=
  Ambient 1000 0 ["./execas"] [] (descriptors broken_pipe).

End Scenario.

(* ===================================================================== *)
(** ** Signals *)
(* ===================================================================== *)

Module Launch.

Import Sys Execas.

(** How a process ends: by [exit] with a status, or by a signal. *)
Inductive outcome := Exited (status : Z) | Killed (sig : signal).

(** A start of the program: the ambient state, the disposition of
    [SIGPIPE] inherited through [execve], and whether the signal is
    blocked.  The program itself changes neither. *)
Record launch := Start {
  l_ambient : ambient;
  l_sigpipe : sigaction;
  l_blocked : bool
}.

(** The signal ends the process when it is raised: default action, not
    blocked. *)
Definition fatal (l : launch) (sig : signal) : bool :=
  match sig, l_sigpipe l with
  | SIGPIPE, SIG_DFL => negb (l_blocked l)
  | SIGPIPE, SIG_IGN => false
  end.

(** The first of the raised signals that ends the process, with the
    number of calls made when it was raised. *)
Fixpoint first_fatal (l : launch) (raised : list (signal * nat))
  : option (signal * nat) :=
  match raised with
  | [] => None
  | (sig, n) :: raised' =>
      if fatal l sig then Some (sig, n) else first_fatal l raised'
  end.

(** Outcome and system calls of a start.  A signal that ends the
    process does so inside the call that raised it: the calls up to
    that one are the whole run, and there is no exit status.  Without
    such a signal the run is [Execas.run]. *)
Definition outcome_of (l : launch) : outcome * list event :=
  let a := l_ambient l in
  match first_fatal l (p_signals (final a)) with
  | Some (sig, n) => (Killed sig, take n (trace a))
  | None => (Exited (exit_status a), trace a)
  end.

End Launch.

(* ===================================================================== *)
(** ** Using the output *)
(* ===================================================================== *)

Module Reader.

Import Sys Execas.

(** The conversion [(uid_t) i] of an [int] [i]. *)
Definition uid_of_int (i : Z) : Z := i mod CInt.modulus.

(** What a consumer gets from an output line with
    [sscanf(out, "real: %d effective: %d\n", &r, &e)] and the
    conversion of both numbers to [uid_t]. *)
Definition recover (out : string) : option (Z * Z) :=
  match fields out with
  | Some (tr, te) =>
      match Fmt.read_d tr, Fmt.read_d te with
      | Some r, Some e => Some (uid_of_int r, uid_of_int e)
      | _, _ => None
      end
  | None => None
  end.

(** Number of characters of [s] that satisfy [f]. *)
Fixpoint count_if (f : ascii -> bool) (s : string) : nat :=
  match s with
  | EmptyString => O
  | String c s' => ((if f c then 1 else 0) + count_if f s')%nat
  end.

End Reader.

(* ===================================================================== *)
(** ** Facts about the decimal conversion *)
(* ===================================================================== *)

Module FmtFacts.

Import Fmt.

Lemma digits_of_uint (d : uint) :
  forallb_string is_digit (NilEmpty.string_of_uint d) = true.
Proof. induction d; simpl; auto. Qed.

Lemma to_uint_normal (p : positive) : nzhead (Pos.to_uint p) = Pos.to_uint p.
Proof.
  pose proof (DecimalPos.Unsigned.to_of (Pos.to_uint p)) as H.
  rewrite DecimalPos.Unsigned.of_to in H. simpl in H.
  pose proof (DecimalPos.Unsigned.to_uint_nonzero p) as Hnz.
  rewrite H in Hnz.
  assert (Hh : nzhead (Pos.to_uint p) <> Nil).
  { intros E. apply Hnz. apply unorm_0. exact E. }
  rewrite <- (unorm_nzhead _ Hh). symmetry. exact H.
Qed.

(** The digits of a positive number: at least one, the first not [0]. *)
Lemma to_uint_head (p : positive) :
  exists c s, NilEmpty.string_of_uint (Pos.to_uint p) = String c s /\
              is_digit c = true /\ Ascii.eqb c "0"%char = false.
Proof.
  pose proof (to_uint_normal p) as Hn.
  pose proof (DecimalPos.Unsigned.to_uint_nonnil p) as Hnil.
  destruct (Pos.to_uint p) as [|d|d|d|d|d|d|d|d|d|d] eqn:E;
    try (simpl; eexists _, _; repeat split; reflexivity).
  - contradiction.
  - exfalso. exact (nzhead_nonzero _ _ Hn).
Qed.

Lemma string_of_pos (p : positive) :
  NilZero.string_of_uint (Pos.to_uint p) = NilEmpty.string_of_uint (Pos.to_uint p).
Proof.
  pose proof (DecimalPos.Unsigned.to_uint_nonnil p) as Hnil.
  destruct (Pos.to_uint p); [contradiction | reflexivity ..].
Qed.

Lemma print_d_pos (p : positive) :
  print_d (Z.pos p) = NilEmpty.string_of_uint (Pos.to_uint p).
Proof. unfold print_d. simpl. apply string_of_pos. Qed.

Lemma print_d_neg (p : positive) :
  print_d (Z.neg p) = String "-"%char (print_d (Z.pos p)).
Proof. unfold print_d. reflexivity. Qed.

Lemma print_d_opp (z : Z) :
  0 < z -> print_d (- z) = String "-"%char (print_d z).
Proof. destruct z; try lia. intros _. apply print_d_neg. Qed.

(** [%d] produces a numeral. *)
Lemma print_d_numeral (z : Z) : is_numeral (print_d z) = true.
Proof.
  destruct z as [|p|p].
  - reflexivity.
  - rewrite print_d_pos.
    destruct (to_uint_head p) as (c & s & E & Hc & _).
    pose proof (digits_of_uint (Pos.to_uint p)) as Hd.
    rewrite E in Hd |- *. unfold is_numeral.
    destruct (Ascii.eqb_spec c "-"%char) as [->|_]; [discriminate Hc | exact Hd].
  - rewrite print_d_neg, print_d_pos.
    destruct (to_uint_head p) as (c & s & E & Hc & _).
    pose proof (digits_of_uint (Pos.to_uint p)) as Hd.
    rewrite E in Hd |- *. unfold is_numeral.
    simpl Ascii.eqb. cbv iota. rewrite Hd. reflexivity.
Qed.

(** [%d] produces no leading zero. *)
Lemma print_d_no_leading_zero (z : Z) : no_leading_zero (print_d z) = true.
Proof.
  destruct z as [|p|p].
  - reflexivity.
  - rewrite print_d_pos.
    destruct (to_uint_head p) as (c & s & E & Hc & H0).
    rewrite E. unfold no_leading_zero.
    destruct (Ascii.eqb_spec c "-"%char) as [->|_]; [discriminate Hc |].
    destruct s; [reflexivity | now rewrite H0].
  - rewrite print_d_neg, print_d_pos.
    destruct (to_uint_head p) as (c & s & E & Hc & H0).
    rewrite E. unfold no_leading_zero. simpl Ascii.eqb. cbv iota.
    destruct s; [reflexivity | now rewrite H0].
Qed.

(** The numeral [%d] produces denotes the value it was given. *)
Lemma read_print_d (z : Z) : read_d (print_d z) = Some z.
Proof.
  unfold read_d, print_d.
  rewrite NilZero.isi.
  - simpl. f_equal. apply DecimalZ.of_to.
  - destruct z; simpl; try discriminate.
    intros [= E]. exact (DecimalPos.Unsigned.to_uint_nonnil _ E).
  - destruct z; simpl; try discriminate.
    intros [= E]. exact (DecimalPos.Unsigned.to_uint_nonnil _ E).
Qed.

Lemma print_d_inj (x y : Z) : print_d x = print_d y -> x = y.
Proof.
  intros E. apply (f_equal read_d) in E.
  rewrite !read_print_d in E. now injection E.
Qed.

(** A numeral contains neither white space nor a newline. *)
Lemma digit_not_space (c : ascii) : is_digit c = true -> isspace c = false.
Proof.
  destruct c as [[] [] [] [] [] [] [] []]; simpl; intros H;
    first [discriminate H | reflexivity].
Qed.

Lemma digits_no_space (s : string) :
  forallb_string is_digit s = true ->
  forallb_string (fun c => negb (isspace c)) s = true.
Proof.
  induction s as [|c s IH]; simpl; [reflexivity|].
  intros [Hc Hs]%andb_prop.
  rewrite (digit_not_space c Hc). simpl. auto.
Qed.

Lemma numeral_no_space (s : string) :
  is_numeral s = true ->
  forallb_string (fun c => negb (isspace c)) s = true.
Proof.
  destruct s as [|c s]; [discriminate|].
  unfold is_numeral.
  destruct (Ascii.eqb_spec c "-"%char) as [->|_].
  - intros [_ H]%andb_prop. simpl. now apply digits_no_space.
  - apply digits_no_space.
Qed.

Lemma print_d_no_space (z : Z) :
  forallb_string (fun c => negb (isspace c)) (print_d z) = true.
Proof. apply numeral_no_space, print_d_numeral. Qed.

Lemma no_space_count_LF (s : string) :
  forallb_string (fun c => negb (isspace c)) s = true ->
  count_char LF s = O.
Proof.
  induction s as [|c s IH]; [reflexivity|].
  cbn [count_char forallb_string].
  intros [Hc Hs]%andb_prop. rewrite (IH Hs).
  destruct (Ascii.eqb_spec LF c) as [<-|_]; [discriminate Hc | reflexivity].
Qed.

Lemma print_d_nonempty (z : Z) : print_d z <> EmptyString.
Proof.
  pose proof (print_d_numeral z) as H.
  destruct (print_d z); [discriminate H | discriminate].
Qed.

Lemma count_char_app (c : ascii) (s t : string) :
  count_char c (s +:+ t) = (count_char c s + count_char c t)%nat.
Proof. induction s as [|d s IH]; simpl; [reflexivity | rewrite IH; lia]. Qed.

Lemma forallb_string_app (f : ascii -> bool) (s t : string) :
  forallb_string f (s +:+ t) = forallb_string f s && forallb_string f t.
Proof.
  induction s as [|d s IH]; simpl; [reflexivity|].
  rewrite IH. now rewrite andb_assoc.
Qed.

Lemma last_char_app_cons (s : string) (c : ascii) (t : string) :
  last_char (s +:+ String c t) = last_char (String c t).
Proof.
  induction s as [|d s IH]; [reflexivity|].
  change (String d s +:+ String c t) with (String d (s +:+ String c t)).
  cbn [last_char]. rewrite IH.
  destruct (s +:+ String c t) eqn:E; [|reflexivity].
  destruct s; discriminate E.
Qed.

End FmtFacts.

(* ===================================================================== *)
(** ** Facts about a run *)
(* ===================================================================== *)

Module RunFacts.

Import Sys Execas.

Lemma strlen_nonneg (s : string) : (strlen s <? 0) = false.
Proof. unfold strlen. apply Z.ltb_ge. lia. Qed.

(** Formatting the two ids with the format string of the program. *)
Lemma vformat_main (r e : Z) :
  Fmt.vformat format_string [r; e] = Some (line r e).
Proof. reflexivity. Qed.

Lemma line_cons (r e : Z) :
  exists s, line r e = String "r"%char s.
Proof. eexists. reflexivity. Qed.

Lemma split_last_LF_app (s1 s2 h t : string) :
  split_last_LF s2 = Some (h, t) ->
  split_last_LF (s1 +:+ s2) = Some (s1 +:+ h, t).
Proof.
  intros H. induction s1 as [|c s1 IH]; [exact H|].
  change (String c s1 +:+ s2) with (String c (s1 +:+ s2)).
  cbn [split_last_LF]. rewrite IH. reflexivity.
Qed.

Lemma split_last_LF_line (r e : Z) :
  split_last_LF (line r e) = Some (line r e, EmptyString).
Proof.
  unfold line.
  repeat (apply split_last_LF_app). reflexivity.
Qed.

(** The whole run, in closed form. *)
Lemma run_eq (a : ambient) :
  run a =
  (0, Proc (a_ruid a) (a_euid a) (a_argv a) (a_environ a)
           (fdt_after (a_fdt a) (line (a_ruid a) (a_euid a)))
           (stdout_mode (a_fdt a)) EmptyString
           (negb (accepts (a_fdt a)))
           [ev_getuid (a_ruid a); ev_geteuid (a_euid a);
            ev_write STDOUT_FILENO (line (a_ruid a) (a_euid a))
                     (write_ret (a_fdt a) (line (a_ruid a) (a_euid a)));
            ev_exit 0]
           (if broken_pipe (a_fdt a) then [(SIGPIPE, 3%nat)] else [])).
Proof.
  destruct a as [r e argv env t].
  unfold run, start, main, exit, bind, getuid, geteuid, printf, exec.
  cbn [a_ruid a_euid a_argv a_environ a_fdt p_ruid p_euid log].
  rewrite vformat_main.
  cbn [p_buf p_mode log set_buf]. 
  change (EmptyString +:+ line r e) with (line r e).
  rewrite split_last_LF_line.
  unfold fflush_stdout, write, fdt_after, write_ret, accepts, stdout_mode,
         broken_pipe.
  cbn [p_buf p_mode p_fdt log set_buf set_fdt set_ferror ret _exit].
  destruct (line_cons r e) as [s Hs].
  destruct (t !! STDOUT_FILENO) as [[[] data [[]|]]|] eqn:E;
    cbn [f_tty]; rewrite ?Hs;
    cbn [p_buf p_mode p_fdt p_trace p_signals log raise set_buf set_fdt
         set_ferror ret _exit p_ruid p_euid p_argv p_environ p_ferror];
    rewrite ?E; rewrite <- ?Hs; rewrite ?strlen_nonneg;
    cbn [p_buf p_mode p_fdt p_trace p_signals log raise set_buf set_fdt
         set_ferror ret _exit p_ruid p_euid p_argv p_environ p_ferror
         app negb Z.ltb Z.compare length];
    try reflexivity.
Qed.

Lemma trace_eq (a : ambient) :
  trace a =
  [ev_getuid (a_ruid a); ev_geteuid (a_euid a);
   ev_write STDOUT_FILENO (line (a_ruid a) (a_euid a))
            (write_ret (a_fdt a) (line (a_ruid a) (a_euid a)));
   ev_exit 0].
Proof. unfold trace, final. rewrite run_eq. reflexivity. Qed.

Lemma append_empty_r (s : string) : s +:+ EmptyString = s.
Proof.
  induction s as [|c s IH]; [reflexivity|].
  change (String c s +:+ EmptyString) with (String c (s +:+ EmptyString)).
  now rewrite IH.
Qed.

Lemma writes_on_stdout (a : ambient) :
  writes_on STDOUT_FILENO (trace a) = [line (a_ruid a) (a_euid a)].
Proof. rewrite trace_eq. reflexivity. Qed.

Lemma stdout_written_eq (a : ambient) :
  stdout_written a = line (a_ruid a) (a_euid a).
Proof.
  unfold stdout_written. rewrite writes_on_stdout.
  cbn [fold_right]. apply append_empty_r.
Qed.

Lemma exit_status_eq (a : ambient) : exit_status a = 0.
Proof. unfold exit_status. rewrite run_eq. reflexivity. Qed.

Lemma final_fdt (a : ambient) :
  p_fdt (final a) = fdt_after (a_fdt a) (line (a_ruid a) (a_euid a)).
Proof. unfold final. rewrite run_eq. reflexivity. Qed.

(** *** Reading an [unsigned int] as an [int] *)

Lemma signed_small (u : Z) :
  CInt.is_uint u -> u <= CInt.INT_MAX -> CInt.signed u = u.
Proof.
  unfold CInt.is_uint, CInt.UINT_MAX, CInt.INT_MAX, CInt.signed.
  change CInt.modulus with 4294967296.
  change CInt.half_modulus with 2147483648.
  intros Hu Hs. rewrite Z.mod_small by lia.
  destruct (Z.ltb_spec u 2147483648); lia.
Qed.

Lemma signed_large (u : Z) :
  CInt.is_uint u -> CInt.INT_MAX < u -> CInt.signed u = u - CInt.modulus.
Proof.
  unfold CInt.is_uint, CInt.UINT_MAX, CInt.INT_MAX, CInt.signed.
  change CInt.modulus with 4294967296.
  change CInt.half_modulus with 2147483648.
  intros Hu Hs. rewrite Z.mod_small by lia.
  destruct (Z.ltb_spec u 2147483648); lia.
Qed.

Lemma signed_range (w : Z) : CInt.is_int (CInt.signed w).
Proof.
  unfold CInt.is_int, CInt.INT_MIN, CInt.INT_MAX, CInt.signed.
  change CInt.modulus with 4294967296.
  change CInt.half_modulus with 2147483648.
  pose proof (Z.mod_pos_bound w 4294967296 ltac:(lia)).
  destruct (Z.ltb_spec (w mod 4294967296) 2147483648); lia.
Qed.

Lemma line_spec_line (r e : Z) :
  CInt.is_uint r -> CInt.is_uint e ->
  r <= CInt.INT_MAX -> e <= CInt.INT_MAX ->
  line r e = spec_line r e.
Proof.
  intros Hr He Hr' He'. unfold line, spec_line.
  now rewrite (signed_small r Hr Hr'), (signed_small e He He').
Qed.

(** *** Reading the line back *)

Lemma strip_prefix_app (pre s : string) :
  strip_prefix pre (pre +:+ s) = Some s.
Proof.
  induction pre as [|c pre IH]; [now destruct s|].
  change (String c pre +:+ s) with (String c (pre +:+ s)).
  cbn [strip_prefix]. now rewrite Ascii.eqb_refl.
Qed.

Lemma digits_numeral_chars (s : string) :
  Fmt.forallb_string Fmt.is_digit s = true ->
  Fmt.forallb_string numeral_char s = true.
Proof.
  induction s as [|c s IH]; [reflexivity|].
  cbn [Fmt.forallb_string]. intros [Hc Hs]%andb_prop.
  unfold numeral_char at 1. rewrite Hc. cbn. auto.
Qed.

Lemma numeral_chars (s : string) :
  Fmt.is_numeral s = true -> Fmt.forallb_string numeral_char s = true.
Proof.
  destruct s as [|c s]; [reflexivity|].
  unfold Fmt.is_numeral.
  destruct (Ascii.eqb_spec c "-"%char) as [->|_].
  - intros [_ H]%andb_prop. cbn [Fmt.forallb_string].
    rewrite (digits_numeral_chars _ H). reflexivity.
  - apply digits_numeral_chars.
Qed.

Lemma span_numeral_app (n : string) (c : ascii) (t : string) :
  Fmt.forallb_string numeral_char n = true ->
  numeral_char c = false ->
  span_numeral (n +:+ String c t) = (n, String c t).
Proof.
  intros Hn Hc. induction n as [|d n IH].
  - change (EmptyString +:+ String c t) with (String c t).
    cbn [span_numeral]. now rewrite Hc.
  - cbn [Fmt.forallb_string] in Hn. apply andb_prop in Hn as [Hd Hn].
    change (String d n +:+ String c t) with (String d (n +:+ String c t)).
    cbn [span_numeral]. rewrite Hd, (IH Hn). reflexivity.
Qed.

Lemma fields_line (r e : Z) :
  fields (line r e) =
  Some (Fmt.print_d (CInt.signed r), Fmt.print_d (CInt.signed e)).
Proof.
  unfold fields, line.
  rewrite strip_prefix_app.
  change (" effective: " +:+ ?x)%string
    with (String " "%char ("effective: " +:+ x)).
  rewrite span_numeral_app;
    [| apply numeral_chars, FmtFacts.print_d_numeral | reflexivity].
  change (String " "%char ("effective: " +:+ ?x))
    with (" effective: " +:+ x)%string.
  rewrite strip_prefix_app.
  rewrite span_numeral_app;
    [| apply numeral_chars, FmtFacts.print_d_numeral | reflexivity].
  reflexivity.
Qed.

(** *** Shape of the line *)

Lemma line_one_LF (r e : Z) : Fmt.count_char Fmt.LF (line r e) = 1%nat.
Proof.
  unfold line. rewrite !FmtFacts.count_char_app.
  rewrite !(FmtFacts.no_space_count_LF _ (FmtFacts.print_d_no_space _)).
  reflexivity.
Qed.

Lemma append_nonempty_r (s t : string) :
  t <> EmptyString -> s +:+ t <> EmptyString.
Proof. destruct s; [trivial | discriminate]. Qed.

Lemma last_char_app (s t : string) :
  t <> EmptyString -> Fmt.last_char (s +:+ t) = Fmt.last_char t.
Proof.
  destruct t as [|c t]; [congruence | intros _].
  apply FmtFacts.last_char_app_cons.
Qed.

Lemma line_last (r e : Z) : Fmt.last_char (line r e) = Some Fmt.LF.
Proof.
  unfold line.
  rewrite !last_char_app;
    repeat first [ reflexivity | discriminate | apply append_nonempty_r ].
Qed.

Lemma chop_app_cons (s : string) (c : ascii) (t : string) :
  chop (s +:+ String c t) = s +:+ chop (String c t).
Proof.
  induction s as [|d s IH]; [reflexivity|].
  change (String d s +:+ ?x) with (String d (s +:+ x)).
  cbn [chop]. rewrite IH.
  destruct (s +:+ String c t) eqn:E; [|reflexivity].
  destruct s; discriminate E.
Qed.

Lemma chop_app (s t : string) :
  t <> EmptyString -> chop (s +:+ t) = s +:+ chop t.
Proof.
  destruct t as [|c t]; [congruence | intros _]. apply chop_app_cons.
Qed.

(** The line without its newline. *)
Lemma chop_line (r e : Z) :
  chop (line r e) =
  ("real: " +:+ Fmt.print_d (CInt.signed r) +:+
   " effective: " +:+ Fmt.print_d (CInt.signed e))%string.
Proof.
  unfold line.
  rewrite !chop_app;
    repeat first [ discriminate | apply append_nonempty_r ].
  cbn [chop]. now rewrite append_empty_r.
Qed.

(** Before the newline the line ends in a digit. *)
Lemma chop_line_last (r e : Z) :
  exists c, Fmt.last_char (chop (line r e)) = Some c /\
            Fmt.isspace c = false.
Proof.
  rewrite chop_line.
  pose proof (FmtFacts.print_d_no_space (CInt.signed e)) as Hsp.
  pose proof (FmtFacts.print_d_nonempty (CInt.signed e)) as Hne.
  rewrite !last_char_app;
    repeat first [ exact Hne | discriminate | apply append_nonempty_r ].
  revert Hsp Hne. generalize (Fmt.print_d (CInt.signed e)) as s.
  induction s as [|c s IH]; [congruence|].
  cbn [Fmt.forallb_string]. intros [Hc Hs]%andb_prop _.
  destruct s as [|d s].
  - exists c. split; [reflexivity|]. now destruct (Fmt.isspace c).
  - apply IH; [exact Hs | discriminate].
Qed.

End RunFacts.

(* ===================================================================== *)
(** ** The properties of the specification *)
(* ===================================================================== *)

Import Sys Execas.

Lemma fdt_after_other (t : gmap Z file) (s : string) (fd : Z) :
  fd <> STDOUT_FILENO -> fdt_after t s !! fd = t !! fd.
Proof.
  intros Hfd. unfold fdt_after.
  destruct (t !! STDOUT_FILENO) as [[tty data [err|]]|]; try reflexivity.
  rewrite lookup_insert_ne; [reflexivity | congruence].
Qed.

Lemma fdt_after_rejected (t : gmap Z file) (s : string) :
  accepts t = false -> fdt_after t s = t.
Proof.
  unfold accepts, fdt_after.
  destruct (t !! STDOUT_FILENO) as [[tty data [err|]]|];
    [reflexivity | discriminate | reflexivity].
Qed.

Lemma fdt_after_accepted (t : gmap Z file) (s : string) :
  accepts t = true ->
  exists tty data,
    t !! STDOUT_FILENO = Some (File tty data None) /\
    fdt_after t s !! STDOUT_FILENO = Some (File tty (data +:+ s) None).
Proof.
  unfold accepts, fdt_after.
  destruct (t !! STDOUT_FILENO) as [[tty data [err|]]|];
    [discriminate | intros _ | discriminate].
  exists tty, data. split; [reflexivity|]. apply lookup_insert_eq.
Qed.

Lemma main_returns_0 (p : proc) : fst (main p) = 0.
Proof.
  unfold main, bind, getuid, geteuid, ret.
  destruct (printf _ _ _) as [n p']. reflexivity.
Qed.

Lemma start_exits_0 (p : proc) : fst (start p) = 0.
Proof.
  unfold start, bind. pose proof (main_returns_0 p) as H.
  destruct (main p) as [st p1]. cbn [fst] in H. subst st.
  unfold exit, bind. destruct (fflush_stdout p1) as [r p2]. reflexivity.
Qed.

(** *** The output line *)

(** C1, as the specification states it, fails for an id above [INT_MAX]:
    user 3000000000 gets the line
    [real: -1294967296 effective: -1294967296\n], not the line
    [real: 3000000000 effective: 3000000000\n] that carries the ids. *)
Lemma C1_high_uid_line_differs :
  valid Scenario.high_uid /\
  stdout_written Scenario.high_uid =
    "real: -1294967296 effective: -1294967296" +:+ String Fmt.LF EmptyString /\
  spec_line (a_ruid Scenario.high_uid) (a_euid Scenario.high_uid) =
    "real: 3000000000 effective: 3000000000" +:+ String Fmt.LF EmptyString /\
  stdout_written Scenario.high_uid <>
    spec_line (a_ruid Scenario.high_uid) (a_euid Scenario.high_uid).
Proof.
  split; [|split; [|split]].
  - vm_compute. repeat split; discriminate.
  - vm_compute. reflexivity.
  - vm_compute. reflexivity.
  - vm_compute. discriminate.
Qed.

(** C1 (amended): in every ambient state with real id [r] and effective
    id [e], the program hands exactly one byte string to standard output,
    the line [real: <R> effective: <E>\n] where [<R>] and [<E>] are the
    decimal numerals of [r] and [e] read as 32-bit signed integers; the
    real id comes first, the effective id second, the line holds exactly
    one newline, which ends it, and has no white space before its first
    word or before the newline.  When both ids are at most [INT_MAX] the
    line is [real: <r> effective: <e>\n] with the ids themselves.  When
    descriptor 1 takes the write, the bytes written through it grow by
    exactly this line. *)
Theorem C1_single_output_line (a : ambient) :
  valid a ->
  writes_on STDOUT_FILENO (trace a) = [stdout_written a] /\
  stdout_written a =
    ("real: " +:+ Fmt.print_d (CInt.signed (a_ruid a)) +:+
     " effective: " +:+ Fmt.print_d (CInt.signed (a_euid a)) +:+
     String Fmt.LF EmptyString)%string /\
  fields (stdout_written a) =
    Some (Fmt.print_d (CInt.signed (a_ruid a)),
          Fmt.print_d (CInt.signed (a_euid a))) /\
  Fmt.count_char Fmt.LF (stdout_written a) = 1%nat /\
  Fmt.last_char (stdout_written a) = Some Fmt.LF /\
  Fmt.first_char (stdout_written a) = Some "r"%char /\
  (exists c, Fmt.last_char (chop (stdout_written a)) = Some c /\
             Fmt.isspace c = false) /\
  (a_ruid a <= CInt.INT_MAX -> a_euid a <= CInt.INT_MAX ->
   stdout_written a = spec_line (a_ruid a) (a_euid a)) /\
  (accepts (a_fdt a) = true ->
   exists tty data,
     a_fdt a !! STDOUT_FILENO = Some (File tty data None) /\
     p_fdt (final a) !! STDOUT_FILENO =
       Some (File tty (data +:+ stdout_written a) None)).
Proof.
  intros [Hr He].
  rewrite RunFacts.writes_on_stdout, RunFacts.stdout_written_eq.
  repeat split.
  - apply RunFacts.fields_line.
  - apply RunFacts.line_one_LF.
  - apply RunFacts.line_last.
  - apply RunFacts.chop_line_last.
  - intros Hr' He'. now apply RunFacts.line_spec_line.
  - intros Hacc. rewrite RunFacts.final_fdt.
    now apply fdt_after_accepted.
Qed.

Lemma C1_single_output_line_witness :
  valid Scenario.plain /\
  stdout_written Scenario.plain =
    spec_line (a_ruid Scenario.plain) (a_euid Scenario.plain).
Proof.
  assert (Hv : valid Scenario.plain).
  { vm_compute. repeat split; discriminate. }
  split; [exact Hv|].
  apply (C1_single_output_line Scenario.plain Hv); vm_compute; discriminate.
Defined.

(** C2: with real and effective id both 1000 the output is
    [real: 1000 effective: 1000\n] and the exit status is 0; with real id
    1000 and effective id 0 the output is [real: 1000 effective: 0\n] and
    the exit status is 0. *)
Theorem C2_end_to_end (a : ambient) :
  a_ruid a = 1000 ->
  (a_euid a = 1000 ->
   stdout_written a =
     "real: 1000 effective: 1000" +:+ String Fmt.LF EmptyString /\
   exit_status a = 0) /\
  (a_euid a = 0 ->
   stdout_written a =
     "real: 1000 effective: 0" +:+ String Fmt.LF EmptyString /\
   exit_status a = 0).
Proof.
  intros Hr.
  rewrite RunFacts.stdout_written_eq, RunFacts.exit_status_eq, Hr.
  split; intros ->; split; reflexivity.
Qed.

Lemma C2_end_to_end_witness :
  (stdout_written Scenario.plain =
     "real: 1000 effective: 1000" +:+ String Fmt.LF EmptyString /\
   exit_status Scenario.plain = 0) /\
  (stdout_written Scenario.setuid_root =
     "real: 1000 effective: 0" +:+ String Fmt.LF EmptyString /\
   exit_status Scenario.setuid_root = 0).
Proof.
  split.
  - apply (C2_end_to_end Scenario.plain); reflexivity.
  - apply (C2_end_to_end Scenario.setuid_root); reflexivity.
Defined.

(** *** The numbers in the line *)

(** C3, as the specification states it, fails for an id above [INT_MAX]:
    for the real id 4294967294 the number field of the output is [-2],
    whose value is not the id. *)
Lemma C3_nfsnobody_prints_minus_two :
  valid Scenario.nfsnobody /\
  fields (stdout_written Scenario.nfsnobody) = Some ("-2", "1000")%string /\
  Fmt.read_d "-2" = Some (-2) /\
  Fmt.read_d "-2" <> Some (a_ruid Scenario.nfsnobody).
Proof.
  split; [|split; [|split]].
  - vm_compute. repeat split; discriminate.
  - vm_compute. reflexivity.
  - vm_compute. reflexivity.
  - vm_compute. discriminate.
Qed.

(** C3 (amended): for every value of the user-id type, each of the two
    ids appears in the output as a base-10 numeral with no leading zeros
    whose value is the id read as a 32-bit signed integer; that value is
    the id itself exactly when the id is at most [INT_MAX]. *)
Theorem C3_decimal_rendering (a : ambient) :
  valid a ->
  exists tr te : string,
    fields (stdout_written a) = Some (tr, te) /\
    Fmt.is_numeral tr = true /\ Fmt.is_numeral te = true /\
    Fmt.no_leading_zero tr = true /\ Fmt.no_leading_zero te = true /\
    Fmt.read_d tr = Some (CInt.signed (a_ruid a)) /\
    Fmt.read_d te = Some (CInt.signed (a_euid a)) /\
    (Fmt.read_d tr = Some (a_ruid a) <-> a_ruid a <= CInt.INT_MAX) /\
    (Fmt.read_d te = Some (a_euid a) <-> a_euid a <= CInt.INT_MAX).
Proof.
  intros [Hr He].
  exists (Fmt.print_d (CInt.signed (a_ruid a))),
         (Fmt.print_d (CInt.signed (a_euid a))).
  rewrite RunFacts.stdout_written_eq, RunFacts.fields_line.
  rewrite !FmtFacts.print_d_numeral, !FmtFacts.print_d_no_leading_zero,
          !FmtFacts.read_print_d.
  assert (Hiff : forall u, CInt.is_uint u ->
            (Some (CInt.signed u) = Some u <-> u <= CInt.INT_MAX)).
  { intros u Hu. split.
    - intros [= E]. destruct (Z_le_gt_dec u CInt.INT_MAX) as [|Hgt]; [assumption|].
      pose proof (RunFacts.signed_large u Hu ltac:(lia)) as E'.
      rewrite E in E'. change CInt.modulus with 4294967296 in E'. lia.
    - intros Hle. now rewrite RunFacts.signed_small. }
  repeat split; try reflexivity; try (apply Hiff; assumption).
Qed.

Lemma C3_decimal_rendering_witness :
  valid Scenario.setuid_root /\
  exists tr te : string,
    fields (stdout_written Scenario.setuid_root) = Some (tr, te) /\
    Fmt.read_d tr = Some 1000 /\ Fmt.read_d te = Some 0.
Proof.
  assert (Hv : valid Scenario.setuid_root).
  { vm_compute. repeat split; discriminate. }
  split; [exact Hv|].
  destruct (C3_decimal_rendering Scenario.setuid_root Hv)
    as (tr & te & Hf & _ & _ & _ & _ & Hr & He & _).
  exists tr, te. repeat split; assumption.
Defined.

(** C10: with a 32-bit unsigned user-id type, an id of at least [2^31]
    appears in the output as a negative decimal number, the id minus
    [2^32] (its bits read as a 32-bit signed integer); an id below [2^31]
    appears as its exact value. *)
Theorem C10_signed_conversion (a : ambient) :
  valid a ->
  exists tr te : string,
    fields (stdout_written a) = Some (tr, te) /\
    (CInt.half_modulus <= a_ruid a ->
     tr = String "-"%char (Fmt.print_d (CInt.modulus - a_ruid a)) /\
     Fmt.read_d tr = Some (a_ruid a - CInt.modulus) /\
     a_ruid a - CInt.modulus < 0) /\
    (a_ruid a < CInt.half_modulus ->
     tr = Fmt.print_d (a_ruid a) /\ Fmt.read_d tr = Some (a_ruid a)) /\
    (CInt.half_modulus <= a_euid a ->
     te = String "-"%char (Fmt.print_d (CInt.modulus - a_euid a)) /\
     Fmt.read_d te = Some (a_euid a - CInt.modulus) /\
     a_euid a - CInt.modulus < 0) /\
    (a_euid a < CInt.half_modulus ->
     te = Fmt.print_d (a_euid a) /\ Fmt.read_d te = Some (a_euid a)).
Proof.
  intros [Hr He].
  exists (Fmt.print_d (CInt.signed (a_ruid a))),
         (Fmt.print_d (CInt.signed (a_euid a))).
  rewrite RunFacts.stdout_written_eq, RunFacts.fields_line.
  rewrite !FmtFacts.read_print_d.
  assert (Hbig : forall u, CInt.is_uint u -> CInt.half_modulus <= u ->
            Fmt.print_d (CInt.signed u) =
              String "-"%char (Fmt.print_d (CInt.modulus - u)) /\
            Some (CInt.signed u) = Some (u - CInt.modulus) /\
            u - CInt.modulus < 0).
  { intros u Hu Hge.
    assert (Hs : CInt.signed u = u - CInt.modulus).
    { apply RunFacts.signed_large; [exact Hu|].
      unfold CInt.INT_MAX. lia. }
    assert (Hlt : 0 < CInt.modulus - u).
    { unfold CInt.is_uint, CInt.UINT_MAX in Hu. lia. }
    rewrite Hs. repeat split; [|lia].
    replace (u - CInt.modulus) with (- (CInt.modulus - u)) by lia.
    now apply FmtFacts.print_d_opp. }
  assert (Hsmall : forall u, CInt.is_uint u -> u < CInt.half_modulus ->
            Fmt.print_d (CInt.signed u) = Fmt.print_d u /\
            Some (CInt.signed u) = Some u).
  { intros u Hu Hlt.
    rewrite RunFacts.signed_small; [split; reflexivity | exact Hu |].
    unfold CInt.INT_MAX. lia. }
  split; [reflexivity|].
  split; [apply Hbig, Hr|]. split; [apply Hsmall, Hr|].
  split; [apply Hbig, He | apply Hsmall, He].
Qed.

Lemma C10_signed_conversion_witness :
  valid Scenario.nfsnobody /\
  exists tr te : string,
    fields (stdout_written Scenario.nfsnobody) = Some (tr, te) /\
    tr = String "-"%char (Fmt.print_d 2) /\
    te = Fmt.print_d 1000.
Proof.
  assert (Hv : valid Scenario.nfsnobody).
  { vm_compute. repeat split; discriminate. }
  split; [exact Hv|].
  destruct (C10_signed_conversion Scenario.nfsnobody Hv)
    as (tr & te & Hf & Hrbig & _ & _ & Hesmall).
  exists tr, te. split; [exact Hf|]. split.
  - apply Hrbig. vm_compute. discriminate.
  - apply Hesmall. vm_compute. reflexivity.
Defined.

(** *** Exit status and failures *)

(** The outcome of a start, in closed form. *)
Lemma outcome_of_eq (l : Launch.launch) :
  Launch.outcome_of l =
  if broken_pipe (a_fdt (Launch.l_ambient l)) && Launch.fatal l SIGPIPE
  then (Launch.Killed SIGPIPE,
        [ev_getuid (a_ruid (Launch.l_ambient l));
         ev_geteuid (a_euid (Launch.l_ambient l));
         ev_write STDOUT_FILENO (stdout_written (Launch.l_ambient l)) (-1)])
  else (Launch.Exited 0,
        [ev_getuid (a_ruid (Launch.l_ambient l));
         ev_geteuid (a_euid (Launch.l_ambient l));
         ev_write STDOUT_FILENO (stdout_written (Launch.l_ambient l))
                  (write_ret (a_fdt (Launch.l_ambient l))
                             (stdout_written (Launch.l_ambient l)));
         ev_exit 0]).
Proof.
  destruct l as [a act blocked].
  unfold Launch.outcome_of. cbn [Launch.l_ambient].
  rewrite RunFacts.stdout_written_eq, RunFacts.exit_status_eq,
          RunFacts.trace_eq.
  unfold final. rewrite RunFacts.run_eq. cbn [snd p_signals].
  destruct (broken_pipe (a_fdt a)) eqn:Hbp; [|reflexivity].
  assert (Hret : write_ret (a_fdt a) (line (a_ruid a) (a_euid a)) = -1).
  { unfold write_ret, accepts. unfold broken_pipe in Hbp.
    destruct (a_fdt a !! STDOUT_FILENO) as [[tty data [[]|]]|];
      (discriminate Hbp || reflexivity). }
  destruct act, blocked; cbn; rewrite ?Hret; reflexivity.
Qed.

(** C4, as the specification states it, fails for its own example of a
    broken pipe: started with the default action of [SIGPIPE], user 1000
    running the program of user 0 into a pipe without reader is killed
    by the signal inside the write; there is no exit call and no exit
    status 0. *)
Lemma C4_broken_pipe_kills :
  accepts (a_fdt Scenario.epipe_stdout) = false /\
  Launch.outcome_of (Launch.Start Scenario.epipe_stdout SIG_DFL false) =
    (Launch.Killed SIGPIPE,
     [ev_getuid 1000; ev_geteuid 0;
      ev_write 1 ("real: 1000 effective: 0" +:+ String Fmt.LF EmptyString)
               (-1)]) /\
  fst (Launch.outcome_of (Launch.Start Scenario.epipe_stdout SIG_DFL false))
    <> Launch.Exited 0.
Proof.
  split; [reflexivity|]. split.
  - vm_compute. reflexivity.
  - vm_compute. discriminate.
Qed.

(** C4 (amended): when the write to standard output fails and the
    failure is an error return (descriptor 1 closed, the file behind it
    rejecting the write, or a pipe without reader while [SIGPIPE] is
    ignored or blocked), the program still ends with exit status 0: the
    failed write is followed by nothing but the exit with status 0, the
    error result being left in the error indicator of [stdout] only.
    When the failure is a pipe without reader and [SIGPIPE] has its
    default action and is not blocked, the process is killed by the
    signal inside the write. *)
Theorem C4_write_error_ignored (l : Launch.launch) :
  accepts (a_fdt (Launch.l_ambient l)) = false ->
  (broken_pipe (a_fdt (Launch.l_ambient l)) = false \/
   Launch.l_sigpipe l = SIG_IGN \/ Launch.l_blocked l = true ->
   Launch.outcome_of l =
     (Launch.Exited 0,
      [ev_getuid (a_ruid (Launch.l_ambient l));
       ev_geteuid (a_euid (Launch.l_ambient l));
       ev_write STDOUT_FILENO (stdout_written (Launch.l_ambient l)) (-1);
       ev_exit 0]) /\
   exit_status (Launch.l_ambient l) = 0 /\
   p_ferror (final (Launch.l_ambient l)) = true /\
   p_fdt (final (Launch.l_ambient l)) = a_fdt (Launch.l_ambient l)) /\
  (broken_pipe (a_fdt (Launch.l_ambient l)) = true ->
   Launch.l_sigpipe l = SIG_DFL -> Launch.l_blocked l = false ->
   Launch.outcome_of l =
     (Launch.Killed SIGPIPE,
      [ev_getuid (a_ruid (Launch.l_ambient l));
       ev_geteuid (a_euid (Launch.l_ambient l));
       ev_write STDOUT_FILENO (stdout_written (Launch.l_ambient l)) (-1)])).
Proof.
  intros Hacc. rewrite outcome_of_eq. unfold write_ret. rewrite Hacc.
  split.
  - intros Hsafe.
    assert (Hnot : broken_pipe (a_fdt (Launch.l_ambient l)) &&
                   Launch.fatal l SIGPIPE = false).
    { unfold Launch.fatal.
      destruct Hsafe as [-> | [-> | ->]]; [reflexivity | |].
      - apply andb_false_r.
      - destruct (Launch.l_sigpipe l); apply andb_false_r. }
    rewrite Hnot. split; [reflexivity|].
    split; [apply RunFacts.exit_status_eq|].
    rewrite RunFacts.final_fdt. unfold final. rewrite RunFacts.run_eq.
    cbn [snd p_ferror]. rewrite Hacc.
    split; [reflexivity | now apply fdt_after_rejected].
  - intros Hbp Hact Hblk. unfold Launch.fatal.
    rewrite Hbp, Hact, Hblk. reflexivity.
Qed.

Lemma C4_write_error_ignored_witness :
  fst (Launch.outcome_of (Launch.Start Scenario.closed_stdout SIG_DFL false))
    = Launch.Exited 0 /\
  fst (Launch.outcome_of (Launch.Start Scenario.epipe_stdout SIG_IGN false))
    = Launch.Exited 0 /\
  fst (Launch.outcome_of (Launch.Start Scenario.epipe_stdout SIG_DFL false))
    = Launch.Killed SIGPIPE.
Proof.
  split; [|split].
  - destruct (C4_write_error_ignored
                (Launch.Start Scenario.closed_stdout SIG_DFL false))
      as [Hexit _]; [reflexivity|].
    destruct Hexit as [-> _]; [left; reflexivity | reflexivity].
  - destruct (C4_write_error_ignored
                (Launch.Start Scenario.epipe_stdout SIG_IGN false))
      as [Hexit _]; [reflexivity|].
    destruct Hexit as [-> _]; [right; left; reflexivity | reflexivity].
  - destruct (C4_write_error_ignored
                (Launch.Start Scenario.epipe_stdout SIG_DFL false))
      as [_ Hkill]; [reflexivity|].
    rewrite Hkill; reflexivity.
Defined.

(** C5: the exit status of every run is 0: [main] returns 0 from every
    process state, the runtime exits with 0 from every process state,
    and the last call of every run is the exit with status 0. *)
Theorem C5_exit_status_zero :
  (forall a : ambient, exit_status a = 0) /\
  (forall p : proc, fst (main p) = 0) /\
  (forall p : proc, fst (start p) = 0) /\
  (forall a : ambient, last (trace a) = Some (ev_exit 0)).
Proof.
  split; [exact RunFacts.exit_status_eq|].
  split; [exact main_returns_0|].
  split; [exact start_exits_0|].
  intros a. rewrite RunFacts.trace_eq. reflexivity.
Qed.

(** *** Determinism and independence *)

(** C6: two runs in which the real ids agree and the effective ids agree
    hand the same bytes to standard output and have the same exit
    status; if moreover standard output is the same file in both, the
    two runs make the same calls with the same results and leave the
    same file behind descriptor 1. *)
Theorem C6_deterministic (a1 a2 : ambient) :
  a_ruid a1 = a_ruid a2 ->
  a_euid a1 = a_euid a2 ->
  stdout_written a1 = stdout_written a2 /\
  exit_status a1 = exit_status a2 /\
  (a_fdt a1 !! STDOUT_FILENO = a_fdt a2 !! STDOUT_FILENO ->
   trace a1 = trace a2 /\
   p_fdt (final a1) !! STDOUT_FILENO = p_fdt (final a2) !! STDOUT_FILENO).
Proof.
  intros Hr He.
  rewrite !RunFacts.stdout_written_eq, !RunFacts.exit_status_eq,
          !RunFacts.trace_eq, !RunFacts.final_fdt, Hr, He.
  split; [reflexivity|]. split; [reflexivity|].
  intros Hfd. unfold write_ret, accepts, fdt_after. rewrite Hfd.
  split; [reflexivity|].
  destruct (a_fdt a2 !! STDOUT_FILENO) as [[tty data [err|]]|] eqn:E;
    rewrite ?lookup_insert_eq; congruence.
Qed.

Lemma C6_deterministic_witness :
  stdout_written Scenario.plain = stdout_written Scenario.closed_stdout /\
  exit_status Scenario.plain = exit_status Scenario.closed_stdout.
Proof.
  destruct (C6_deterministic Scenario.plain Scenario.closed_stdout)
    as (Hout & Hst & _); [reflexivity | reflexivity |].
  split; assumption.
Defined.

(** C7: the output and the exit status do not depend on the argument
    vector or on the environment: two runs with the same real id, the
    same effective id and the same descriptors, whatever their arguments
    and environments, make the same calls with the same results, hand
    the same bytes to standard output, exit with the same status and
    leave the same files. *)
Theorem C7_arguments_and_environment_unused (a1 a2 : ambient) :
  a_ruid a1 = a_ruid a2 ->
  a_euid a1 = a_euid a2 ->
  a_fdt a1 = a_fdt a2 ->
  trace a1 = trace a2 /\
  stdout_written a1 = stdout_written a2 /\
  exit_status a1 = exit_status a2 /\
  p_fdt (final a1) = p_fdt (final a2).
Proof.
  intros Hr He Hfd.
  rewrite !RunFacts.stdout_written_eq, !RunFacts.exit_status_eq,
          !RunFacts.trace_eq, !RunFacts.final_fdt, Hr, He, Hfd.
  repeat split.
Qed.

Lemma C7_arguments_and_environment_unused_witness :
  a_argv Scenario.plain <> a_argv Scenario.plain_args /\
  a_environ Scenario.plain <> a_environ Scenario.plain_args /\
  trace Scenario.plain = trace Scenario.plain_args /\
  exit_status Scenario.plain = exit_status Scenario.plain_args.
Proof.
  split; [discriminate|]. split; [discriminate|].
  destruct (C7_arguments_and_environment_unused
              Scenario.plain Scenario.plain_args)
    as (Htr & _ & Hst & _); [reflexivity | reflexivity | reflexivity |].
  split; assumption.
Defined.

(** *** Effects and order of the calls *)

(** C8: the only effect of a run is one write on standard output: the
    trace holds exactly one write, on descriptor 1; every other
    descriptor is as it was before; the bytes written through
    descriptor 1 are unchanged or longer by the written line; real id,
    effective id, arguments and environment of the process at exit are
    those at entry. *)
Theorem C8_only_effect_is_one_write (a : ambient) :
  List.filter is_write (trace a) =
    [ev_write STDOUT_FILENO (stdout_written a)
              (write_ret (a_fdt a) (stdout_written a))] /\
  (forall fd : Z, fd <> STDOUT_FILENO ->
     p_fdt (final a) !! fd = a_fdt a !! fd) /\
  (p_fdt (final a) = a_fdt a \/
   exists tty data,
     a_fdt a !! STDOUT_FILENO = Some (File tty data None) /\
     p_fdt (final a) =
       <[STDOUT_FILENO := File tty (data +:+ stdout_written a) None]>
         (a_fdt a)) /\
  p_ruid (final a) = a_ruid a /\
  p_euid (final a) = a_euid a /\
  p_argv (final a) = a_argv a /\
  p_environ (final a) = a_environ a.
Proof.
  rewrite RunFacts.stdout_written_eq, RunFacts.trace_eq, RunFacts.final_fdt.
  unfold final. rewrite RunFacts.run_eq.
  cbn [snd p_ruid p_euid p_argv p_environ p_fdt].
  split; [reflexivity|].
  split; [intros fd Hfd; now apply fdt_after_other|].
  split; [|repeat split].
  unfold fdt_after.
  destruct (a_fdt a !! STDOUT_FILENO) as [[tty data [err|]]|] eqn:E;
    [left; reflexivity | right | left; reflexivity].
  exists tty, data. split; reflexivity.
Qed.

(** C9: every run is the same sequence of calls: the real id is queried,
    then the effective id, then the line formatted from these two
    results is written, then the process exits; each of the two queries
    is made exactly once, and the sequence of calls is the same in every
    ambient state. *)
Theorem C9_linear_sequence (a : ambient) :
  map call_of (trace a) = [GETUID; GETEUID; WRITE; EXIT] /\
  (exists payload ret,
     trace a = [ev_getuid (a_ruid a); ev_geteuid (a_euid a);
                ev_write STDOUT_FILENO payload ret; ev_exit 0] /\
     Fmt.vformat format_string [a_ruid a; a_euid a] = Some payload) /\
  length (List.filter is_getuid (trace a)) = 1%nat /\
  length (List.filter is_geteuid (trace a)) = 1%nat /\
  length (List.filter is_write (trace a)) = 1%nat.
Proof.
  rewrite RunFacts.trace_eq.
  split; [reflexivity|].
  split; [|repeat split].
  eexists _, _. split; [reflexivity | apply RunFacts.vformat_main].
Qed.

(* ===================================================================== *)
(** ** Further properties of the program *)
(* ===================================================================== *)

Module MoreFacts.

Import Reader.

Lemma length_append (s t : string) :
  String.length (s +:+ t) = (String.length s + String.length t)%nat.
Proof.
  induction s as [|c s IH]; [reflexivity|].
  change (String c s +:+ t) with (String c (s +:+ t)).
  cbn [String.length]. now rewrite IH.
Qed.

Lemma length_string_of_uint (d : uint) :
  String.length (NilEmpty.string_of_uint d) = nb_digits d.
Proof. induction d; cbn [NilEmpty.string_of_uint String.length nb_digits]; congruence. Qed.

(** Reading digits most significant first: every further digit
    multiplies what has been read by ten. *)
Lemma of_uint_acc_lower (d : uint) (acc : positive) :
  Z.pos acc * 10 ^ Z.of_nat (nb_digits d) <= Z.pos (Pos.of_uint_acc d acc).
Proof.
  revert acc. induction d; intros acc;
    cbn [Pos.of_uint_acc nb_digits];
    [ rewrite Z.pow_0_r; lia | .. ];
    rewrite Nat2Z.inj_succ, Z.pow_succ_r by lia;
    (etransitivity; [|apply IHd]);
    assert (0 < 10 ^ Z.of_nat (nb_digits d)) by (apply Z.pow_pos_nonneg; lia);
    nia.
Qed.

Lemma digits_of_small_pos (p : positive) :
  Z.pos p < 10 ^ 10 -> (nb_digits (Pos.to_uint p) <= 10)%nat.
Proof.
  intros Hp.
  pose proof (FmtFacts.to_uint_normal p) as Hn.
  pose proof (DecimalPos.Unsigned.to_uint_nonnil p) as Hnil.
  pose proof (DecimalPos.Unsigned.of_to p) as Hof.
  assert (Hpow : forall n : nat, (10 <= n)%nat -> 10 ^ 10 <= 10 ^ Z.of_nat n).
  { intros n Hn'. apply Z.pow_le_mono_r; lia. }
  destruct (Pos.to_uint p) as [|d|d|d|d|d|d|d|d|d|d] eqn:E;
    [ contradiction
    | exfalso; exact (nzhead_nonzero _ _ Hn)
    | .. ];
    cbn [Pos.of_uint] in Hof; injection Hof as Hof;
    cbn [nb_digits];
    destruct (le_gt_dec (nb_digits d) 9) as [|Hgt]; try lia;
    exfalso;
    match type of Hof with
    | Pos.of_uint_acc _ ?k = _ =>
        pose proof (of_uint_acc_lower d k) as Hlow
    end;
    rewrite Hof in Hlow;
    specialize (Hpow (nb_digits d) ltac:(lia));
    nia.
Qed.

(** A 32-bit [int] takes at most eleven characters under [%d]. *)
Lemma length_print_d (z : Z) :
  CInt.is_int z ->
  (1 <= String.length (Fmt.print_d z) <= 11)%nat.
Proof.
  unfold CInt.is_int, CInt.INT_MIN, CInt.INT_MAX.
  change CInt.half_modulus with 2147483648. intros Hz.
  assert (H10 : 2147483648 < 10 ^ 10) by reflexivity.
  destruct z as [|p|p].
  - cbn. lia.
  - rewrite FmtFacts.print_d_pos, length_string_of_uint.
    pose proof (digits_of_small_pos p ltac:(lia)).
    pose proof (DecimalPos.Unsigned.to_uint_nonnil p) as Hnil.
    destruct (Pos.to_uint p); [contradiction | cbn [nb_digits] in *; lia ..].
  - rewrite FmtFacts.print_d_neg, FmtFacts.print_d_pos.
    cbn [String.length]. rewrite length_string_of_uint.
    pose proof (digits_of_small_pos p ltac:(lia)). lia.
Qed.

Lemma length_line (r e : Z) :
  String.length (line r e) =
  (19 + String.length (Fmt.print_d (CInt.signed r))
      + String.length (Fmt.print_d (CInt.signed e)))%nat.
Proof.
  unfold line. rewrite !length_append. cbn [String.length]. lia.
Qed.

(** Converting back to [uid_t] undoes the signed reading. *)
Lemma uid_of_int_signed (u : Z) :
  CInt.is_uint u -> uid_of_int (CInt.signed u) = u.
Proof.
  intros Hu. unfold uid_of_int.
  destruct (Z_le_gt_dec u CInt.INT_MAX) as [Hle|Hgt].
  - rewrite RunFacts.signed_small by assumption.
    apply Z.mod_small. unfold CInt.is_uint, CInt.UINT_MAX in Hu. lia.
  - rewrite RunFacts.signed_large by (assumption || lia).
    replace (u - CInt.modulus) with (u + (-1) * CInt.modulus) by lia.
    rewrite Z_mod_plus_full.
    apply Z.mod_small. unfold CInt.is_uint, CInt.UINT_MAX in Hu. lia.
Qed.

Lemma signed_inj (u v : Z) :
  CInt.is_uint u -> CInt.is_uint v ->
  CInt.signed u = CInt.signed v -> u = v.
Proof.
  intros Hu Hv E.
  rewrite <- (uid_of_int_signed u Hu), <- (uid_of_int_signed v Hv).
  now rewrite E.
Qed.

Lemma recover_line (r e : Z) :
  CInt.is_uint r -> CInt.is_uint e ->
  recover (line r e) = Some (r, e).
Proof.
  intros Hr He. unfold recover.
  rewrite RunFacts.fields_line, !FmtFacts.read_print_d.
  now rewrite (uid_of_int_signed r Hr), (uid_of_int_signed e He).
Qed.

Lemma count_if_app (f : ascii -> bool) (s t : string) :
  count_if f (s +:+ t) = (count_if f s + count_if f t)%nat.
Proof.
  induction s as [|c s IH]; [reflexivity|].
  change (String c s +:+ t) with (String c (s +:+ t)).
  cbn [count_if]. rewrite IH. lia.
Qed.

Lemma count_if_none (f : ascii -> bool) (s : string) :
  Fmt.forallb_string (fun c => negb (f c)) s = true -> count_if f s = O.
Proof.
  induction s as [|c s IH]; [reflexivity|].
  cbn [Fmt.forallb_string count_if]. intros [Hc Hs]%andb_prop.
  rewrite (IH Hs). now destruct (f c).
Qed.

Lemma no_space_no_blank (s : string) :
  Fmt.forallb_string (fun c => negb (Fmt.isspace c)) s = true ->
  Fmt.forallb_string (fun c => negb (Ascii.eqb c " "%char)) s = true.
Proof.
  induction s as [|c s IH]; [reflexivity|].
  cbn [Fmt.forallb_string]. intros [Hc Hs]%andb_prop.
  rewrite (IH Hs), andb_true_r.
  destruct (Ascii.eqb_spec c " "%char) as [->|_]; [discriminate Hc | reflexivity].
Qed.

End MoreFacts.

Import Reader.

(** X1: the output line is between 21 and 41 bytes long and each of its
    two number fields between 1 and 11 characters, in every ambient
    state; both bounds are reached (ids 0 and 0, ids 2147483648 and
    2147483648). *)
Theorem X1_line_length_bounds :
  (forall a : ambient,
     (21 <= String.length (stdout_written a) <= 41)%nat /\
     exists tr te : string,
       fields (stdout_written a) = Some (tr, te) /\
       (1 <= String.length tr <= 11)%nat /\
       (1 <= String.length te <= 11)%nat) /\
  (exists a : ambient,
     valid a /\ String.length (stdout_written a) = 21%nat) /\
  (exists a : ambient,
     valid a /\ String.length (stdout_written a) = 41%nat).
Proof.
  split; [|split].
  - intros a. rewrite RunFacts.stdout_written_eq, MoreFacts.length_line.
    pose proof (MoreFacts.length_print_d _ (RunFacts.signed_range (a_ruid a))) as Hr.
    pose proof (MoreFacts.length_print_d _ (RunFacts.signed_range (a_euid a))) as He.
    split; [lia|].
    eexists _, _. split; [apply RunFacts.fields_line|]. split; assumption.
  - exists (Ambient 0 0 [] [] ∅). split; [|reflexivity].
    vm_compute. repeat split; discriminate.
  - exists (Ambient 2147483648 2147483648 [] [] ∅). split; [|reflexivity].
    vm_compute. repeat split; discriminate.
Qed.

(** X2: the two ids can be read back from the output: scanning the line
    with two [%d] conversions and converting both numbers to the
    user-id type gives the real and the effective id of the run, also
    for ids that are printed as negative numbers. *)
Theorem X2_ids_recoverable (a : ambient) :
  valid a ->
  recover (stdout_written a) = Some (a_ruid a, a_euid a).
Proof.
  intros [Hr He]. rewrite RunFacts.stdout_written_eq.
  now apply MoreFacts.recover_line.
Qed.

Lemma X2_ids_recoverable_witness :
  valid Scenario.nfsnobody /\
  recover (stdout_written Scenario.nfsnobody) = Some (4294967294, 1000).
Proof.
  assert (Hv : valid Scenario.nfsnobody).
  { vm_compute. repeat split; discriminate. }
  split; [exact Hv|].
  exact (X2_ids_recoverable Scenario.nfsnobody Hv).
Defined.

(** X3: two runs write the same line exactly when their real ids agree
    and their effective ids agree: different ids never share an output
    line. *)
Theorem X3_output_determines_ids (a1 a2 : ambient) :
  valid a1 -> valid a2 ->
  (stdout_written a1 = stdout_written a2 <->
   a_ruid a1 = a_ruid a2 /\ a_euid a1 = a_euid a2).
Proof.
  intros [Hr1 He1] [Hr2 He2]. rewrite !RunFacts.stdout_written_eq. split.
  - intros E. apply (f_equal recover) in E.
    rewrite !MoreFacts.recover_line in E by assumption.
    injection E as -> ->. split; reflexivity.
  - intros [-> ->]. reflexivity.
Qed.

Lemma X3_output_determines_ids_witness :
  valid Scenario.plain /\ valid Scenario.setuid_root /\
  stdout_written Scenario.plain <> stdout_written Scenario.setuid_root.
Proof.
  assert (Hv1 : valid Scenario.plain).
  { vm_compute. repeat split; discriminate. }
  assert (Hv2 : valid Scenario.setuid_root).
  { vm_compute. repeat split; discriminate. }
  split; [exact Hv1|]. split; [exact Hv2|].
  intros E.
  apply (X3_output_determines_ids Scenario.plain Scenario.setuid_root Hv1 Hv2) in E.
  destruct E as [_ E]. discriminate E.
Defined.

(** X4: the two number fields of the output are the same text exactly
    when the real and the effective id are equal: a run under a
    set-user-ID bit that changes the effective id shows two different
    numbers. *)
Theorem X4_fields_equal_iff_ids_equal (a : ambient) :
  valid a ->
  exists tr te : string,
    fields (stdout_written a) = Some (tr, te) /\
    (tr = te <-> a_ruid a = a_euid a).
Proof.
  intros [Hr He].
  eexists _, _. rewrite RunFacts.stdout_written_eq.
  split; [apply RunFacts.fields_line|]. split.
  - intros E. apply FmtFacts.print_d_inj in E.
    now apply MoreFacts.signed_inj.
  - intros ->. reflexivity.
Qed.

Lemma X4_fields_equal_iff_ids_equal_witness :
  valid Scenario.setuid_root /\
  exists tr te : string,
    fields (stdout_written Scenario.setuid_root) = Some (tr, te) /\
    tr <> te.
Proof.
  assert (Hv : valid Scenario.setuid_root).
  { vm_compute. repeat split; discriminate. }
  split; [exact Hv|].
  destruct (X4_fields_equal_iff_ids_equal Scenario.setuid_root Hv)
    as (tr & te & Hf & Hiff).
  exists tr, te. split; [exact Hf|].
  intros E. apply Hiff in E. discriminate E.
Defined.

(** X7: the output line holds exactly four white-space characters: three
    spaces (after [real:], before [effective:] and after it) and the
    final newline; the number fields bring none. *)
Theorem X7_white_space_of_the_line (a : ambient) :
  count_if Fmt.isspace (stdout_written a) = 4%nat /\
  count_if (fun c => Ascii.eqb c " "%char) (stdout_written a) = 3%nat /\
  count_if (fun c => Ascii.eqb c Fmt.LF) (stdout_written a) = 1%nat.
Proof.
  rewrite RunFacts.stdout_written_eq. unfold line.
  pose proof (FmtFacts.print_d_no_space (CInt.signed (a_ruid a))) as Hr.
  pose proof (FmtFacts.print_d_no_space (CInt.signed (a_euid a))) as He.
  rewrite !MoreFacts.count_if_app.
  rewrite !(MoreFacts.count_if_none Fmt.isspace _ Hr),
          !(MoreFacts.count_if_none Fmt.isspace _ He).
  rewrite !(MoreFacts.count_if_none _ _ (MoreFacts.no_space_no_blank _ Hr)),
          !(MoreFacts.count_if_none _ _ (MoreFacts.no_space_no_blank _ He)).
  assert (HLF : forall s,
            Fmt.forallb_string (fun c => negb (Fmt.isspace c)) s = true ->
            count_if (fun c => Ascii.eqb c Fmt.LF) s = O).
  { intros s Hs. apply MoreFacts.count_if_none.
    induction s as [|c s IH]; [reflexivity|].
    cbn [Fmt.forallb_string] in *. apply andb_prop in Hs as [Hc Hs].
    rewrite (IH Hs), andb_true_r.
    destruct (Ascii.eqb_spec c Fmt.LF) as [->|_]; [discriminate Hc | reflexivity]. }
  rewrite !(HLF _ Hr), !(HLF _ He).
  repeat split.
Qed.
